(** * A shallow embedding of the vtk-h clip filter ([vtkh::Clip]) and of its
    multi-plane implicit function ([vtkh::detail::MultiPlane]).

    Scalars ([vtkm::FloatDefault], [float], [double]) are modelled as exact
    rationals [Q]; the only value a float loop needs beyond [Q] is the
    starting [vtkm::NegativeInfinity], modelled by the extended scalar [ext].
    The external vtk-m pieces (the mesh-clip worklet, [CleanGrid], the
    double-to-float conversion and [vtkm::RSqrt]) are parameters. *)

From Stdlib Require Import QArith ZArith List Bool Lia.
Import ListNotations.

(** ** Vectors: [vtkm::Vec<FloatDefault,3>] *)

Record Vec3 : Type := mkVec3 { vx : Q; vy : Q; vz : Q }.

Definition vzero : Vec3 := mkVec3 0 0 0.

(** [operator-] on [vtkm::Vec] *)
Definition vsub (a b : Vec3) : Vec3 :=
  mkVec3 (vx a - vx b) (vy a - vy b) (vz a - vz b).

(** [vtkm::Dot] *)
Definition Dot (a b : Vec3) : Q := vx a * vx b + vy a * vy b + vz a * vz b.

(** [operator*] of a vector by a scalar *)
Definition vscale (a : Vec3) (s : Q) : Vec3 := mkVec3 (vx a * s) (vy a * s) (vz a * s).

(** ** Extended scalars: a float that may hold [vtkm::NegativeInfinity] *)

Inductive ext : Type :=
| NegInf : ext
| Fin : Q -> ext.

(** [vtkm::Max] (an [fmax]): the larger argument. *)
Definition ext_max (a b : ext) : ext :=
  match a, b with
  | NegInf, _ => b
  | _, NegInf => a
  | Fin x, Fin y => if Qle_bool x y then Fin y else Fin x
  end.

(** [a > b] on extended scalars. *)
Definition ext_gtb (a b : ext) : bool :=
  match a, b with
  | NegInf, _ => false
  | Fin _, NegInf => true
  | Fin x, Fin y => negb (Qle_bool x y)
  end.

(** Strict order on extended scalars, used to state the sign claims. *)
Definition ext_lt (a b : ext) : Prop :=
  match a, b with
  | NegInf, NegInf => False
  | NegInf, Fin _ => True
  | Fin _, NegInf => False
  | Fin x, Fin y => x < y
  end.

(** ** Fixed-size arrays updated by index *)

(** [arr[i] = v]; the model's arrays are the C++ arrays of six vectors. *)
Fixpoint set_nth {A} (l : list A) (i : nat) (v : A) : list A :=
  match l, i with
  | [], _ => []
  | _ :: t, O => v :: t
  | h :: t, S j => h :: set_nth t j v
  end.

(** [arr[i]] *)
Definition get (l : list Vec3) (i : nat) : Vec3 := nth i l vzero.

(** ** [vtkh::detail::MultiPlane] *)

(** The object state: the two six-slot arrays, the active count and the
    modification counter that [vtkm::ImplicitFunction::Modified] bumps. *)
Record MultiPlane : Type := mkMultiPlane {
  Points : list Vec3;
  Normals : list Vec3;
  m_num_planes : Z;
  ModifiedCount : nat
}.

(** [MultiPlane() = default]: the default member initialisers.  The slots
    past the three written initialisers are value-initialised to zero. *)
Definition MultiPlane_default : MultiPlane := {|
  Points := [mkVec3 0 0 0; mkVec3 0 0 0; mkVec3 0 0 0; vzero; vzero; vzero];
  Normals := [mkVec3 (-1) 0 0; mkVec3 1 0 0; mkVec3 0 0 0; vzero; vzero; vzero];
  m_num_planes := 3;
  ModifiedCount := 0
|}.

(** Outcome of a method containing a [VTKM_ASSERT]. *)
Inductive Checked (A : Type) : Type :=
| Ok : A -> Checked A
| AssertFail : Checked A.
Arguments Ok {A} _.
Arguments AssertFail {A}.

(** [Modified()] *)
Definition Modified (mp : MultiPlane) : MultiPlane :=
  {| Points := Points mp; Normals := Normals mp;
     m_num_planes := m_num_planes mp; ModifiedCount := S (ModifiedCount mp) |}.

(** [SetPlanes(points, normals)]: copies slots 0, 1 and 2, then [Modified()]. *)
Definition SetPlanes (mp : MultiPlane) (points normals : list Vec3) : MultiPlane :=
  let ps := set_nth (set_nth (set_nth (Points mp) 0 (get points 0)) 1 (get points 1))
                    2 (get points 2) in
  let ns := set_nth (set_nth (set_nth (Normals mp) 0 (get normals 0)) 1 (get normals 1))
                    2 (get normals 2) in
  Modified {| Points := ps; Normals := ns;
              m_num_planes := m_num_planes mp; ModifiedCount := ModifiedCount mp |}.

(** [SetPlane(idx, point, normal)], guarded by [VTKM_ASSERT(idx >= 0 && idx < 3)]. *)
Definition SetPlane (mp : MultiPlane) (idx : Z) (point normal : Vec3) : Checked MultiPlane :=
  if (0 <=? idx)%Z && (idx <? 3)%Z then
    Ok (Modified {| Points := set_nth (Points mp) (Z.to_nat idx) point;
                    Normals := set_nth (Normals mp) (Z.to_nat idx) normal;
                    m_num_planes := m_num_planes mp;
                    ModifiedCount := ModifiedCount mp |})
  else AssertFail.

(** [SetNumPlanes(num)]: no check on [num]. *)
Definition SetNumPlanes (mp : MultiPlane) (num : Z) : Checked MultiPlane :=
  Ok (Modified {| Points := Points mp; Normals := Normals mp;
                  m_num_planes := num; ModifiedCount := ModifiedCount mp |}).

(** [MultiPlane(points, normals, num_planes)]: [SetPlanes] on the default
    object, then a plain store of the count. *)
Definition MultiPlane_make (points normals : list Vec3) (num_planes : Z) : MultiPlane :=
  let mp := SetPlanes MultiPlane_default points normals in
  {| Points := Points mp; Normals := Normals mp;
     m_num_planes := num_planes; ModifiedCount := ModifiedCount mp |}.

(** [GetPlanes(points, normals)]: writes out slots 0, 1 and 2. *)
Definition GetPlanes (mp : MultiPlane) : list Vec3 * list Vec3 :=
  ([get (Points mp) 0; get (Points mp) 1; get (Points mp) 2],
   [get (Normals mp) 0; get (Normals mp) 1; get (Normals mp) 2]).

(** [GetPoints()] and [GetNormals()] *)
Definition GetPoints (mp : MultiPlane) : list Vec3 := Points mp.
Definition GetNormals (mp : MultiPlane) : list Vec3 := Normals mp.

(** [vtkm::Dot(point - p, n)] for slot [index]. *)
Definition plane_val (mp : MultiPlane) (point : Vec3) (index : nat) : Q :=
  Dot (vsub point (get (Points mp) index)) (get (Normals mp) index).

(** The body of [Value]'s loop, from [index] on, [fuel] iterations left. *)
Fixpoint value_loop (mp : MultiPlane) (point : Vec3) (index fuel : nat) (maxVal : ext) : ext :=
  match fuel with
  | O => maxVal
  | S f => value_loop mp point (S index) f (ext_max maxVal (Fin (plane_val mp point index)))
  end.

(** [Value(point)]: [for (index = 0; index < m_num_planes; ++index)]. *)
Definition Value (mp : MultiPlane) (point : Vec3) : ext :=
  value_loop mp point 0 (Z.to_nat (m_num_planes mp)) NegInf.

(** The body of [Gradient]'s loop. *)
Fixpoint gradient_loop (mp : MultiPlane) (point : Vec3) (index fuel : nat)
    (maxVal : ext) (maxValIdx : nat) : nat :=
  match fuel with
  | O => maxValIdx
  | S f =>
      let val := Fin (plane_val mp point index) in
      if ext_gtb val maxVal
      then gradient_loop mp point (S index) f val index
      else gradient_loop mp point (S index) f maxVal maxValIdx
  end.

(** [Gradient(point)]: [return this->Normals[maxValIdx]]. *)
Definition Gradient (mp : MultiPlane) (point : Vec3) : Vec3 :=
  get (Normals mp) (gradient_loop mp point 0 (Z.to_nat (m_num_planes mp)) NegInf 0).

(** ** The implicit functions a [vtkh::Clip] can hold *)

(** [vtkm::Range] and [vtkm::Bounds] (components are [vtkm::Float64]). *)
Record Range : Type := mkRange { RMin : Q; RMax : Q }.
Record Bounds : Type := mkBounds { BX : Range; BY : Range; BZ : Range }.

(** The implicit functions built by the setters: [vtkm::Box], [vtkm::Sphere],
    [vtkm::Plane] and [vtkh::detail::MultiPlane]. *)
Inductive ImplicitFunction : Type :=
| IFBox : Vec3 -> Vec3 -> ImplicitFunction
| IFSphere : Vec3 -> Q -> ImplicitFunction
| IFPlane : Vec3 -> Vec3 -> ImplicitFunction
| IFMultiPlane : MultiPlane -> ImplicitFunction.

(** [vtkm::cont::ImplicitFunctionHandle]: empty until a setter fills it. *)
Definition ImplicitFunctionHandle : Type := option ImplicitFunction.

Section ClipFilter.

(** The meshes ([vtkm::cont::DataSet]), the field selection and the
    exceptions of the external collaborators are opaque. *)
Variables (Mesh FieldSelection Exn : Type).

(** Conversion of a [double] to [float] / [vtkm::FloatDefault]. *)
Variable to_float : Q -> Q.

(** [vtkm::RSqrt]. *)
Variable RSqrt : Q -> Q.

(** [vtkh::vtkmClip::Run(dom, func, invert, field_selection)]: a clipped mesh
    or a thrown exception. *)
Variable vtkmClip_Run : Mesh -> ImplicitFunctionHandle -> bool -> FieldSelection -> Exn + Mesh.

(** [vtkh::DataSet]: the domains with their domain ids, in insertion order. *)
Definition DataSet : Type := list (Mesh * Z).

(** [CleanGrid]: [SetInput], [Update], [GetOutput]. *)
Variable CleanGrid_Run : DataSet -> Exn + DataSet.

(** [vtkm::Normalize(v)]: [v * RSqrt(Dot(v, v))].  At the zero vector
    vtk-m computes [0 * RSqrt(0) = 0 * inf], NaN components; the rational
    model has no NaN, so no result here describes the value of [Normalize]
    (or of [Value] and [Gradient] downstream of it) at a zero vector. *)
Definition Normalize (v : Vec3) : Vec3 := vscale v (RSqrt (Dot v v)).

(** Componentwise [float(...)] of a [const double[3]]. *)
Definition vconv (v : Vec3) : Vec3 := mkVec3 (to_float (vx v)) (to_float (vy v)) (to_float (vz v)).

(** The state of a [vtkh::Clip]: the [Filter] base fields it uses, the
    handle in [m_internals] and [m_invert]. *)
Record Clip : Type := mkClip {
  m_input : DataSet;
  m_output : option DataSet;
  m_field_selection : FieldSelection;
  m_func : ImplicitFunctionHandle;
  m_invert : bool
}.

Definition set_func (c : Clip) (f : ImplicitFunction) : Clip :=
  {| m_input := m_input c; m_output := m_output c; m_field_selection := m_field_selection c;
     m_func := Some f; m_invert := m_invert c |}.

(** [Clip::SetInvertClip] *)
Definition SetInvertClip (c : Clip) (invert : bool) : Clip :=
  {| m_input := m_input c; m_output := m_output c; m_field_selection := m_field_selection c;
     m_func := m_func c; m_invert := invert |}.

(** [Clip::SetBoxClip] *)
Definition SetBoxClip (c : Clip) (b : Bounds) : Clip :=
  set_func c (IFBox (mkVec3 (to_float (RMin (BX b))) (to_float (RMin (BY b))) (to_float (RMin (BZ b))))
                    (mkVec3 (to_float (RMax (BX b))) (to_float (RMax (BY b))) (to_float (RMax (BZ b))))).

(** [Clip::SetSphereClip] *)
Definition SetSphereClip (c : Clip) (center : Vec3) (radius : Q) : Clip :=
  set_func c (IFSphere (vconv center) (to_float radius)).

(** [Clip::SetPlaneClip] *)
Definition SetPlaneClip (c : Clip) (origin normal : Vec3) : Clip :=
  set_func c (IFPlane (vconv origin) (vconv normal)).

(** [Clip::Set2PlaneClip] *)
Definition Set2PlaneClip (c : Clip) (origin1 normal1 origin2 normal2 : Vec3) : Clip :=
  let plane_points := [vconv origin1; vconv origin2; vzero] in
  let plane_normals := [Normalize (vconv normal1); Normalize (vconv normal2); vzero] in
  set_func c (IFMultiPlane (MultiPlane_make plane_points plane_normals 2)).

(** [Clip::Set3PlaneClip] *)
Definition Set3PlaneClip (c : Clip) (origin1 normal1 origin2 normal2 origin3 normal3 : Vec3) : Clip :=
  let plane_points := [vconv origin1; vconv origin2; vconv origin3] in
  let plane_normals := [Normalize (vconv normal1); Normalize (vconv normal2);
                        Normalize (vconv normal3)] in
  set_func c (IFMultiPlane (MultiPlane_make plane_points plane_normals 3)).

(** The arguments of one call of [vtkmClip::Run]. *)
Definition ClipCall : Type := (Mesh * ImplicitFunctionHandle * bool * FieldSelection)%type.

(** The loop of [Clip::DoExecute] from domain index [i], [fuel] iterations
    left: the calls made to [vtkmClip::Run] and the assembled [data_set], or
    the exception that left the loop. *)
Fixpoint do_loop (c : Clip) (i fuel : nat) (data_set : DataSet) : list ClipCall * (Exn + DataSet) :=
  match fuel with
  | O => ([], inr data_set)
  | S f =>
      match nth_error (m_input c) i with
      | None => ([], inr data_set)
      | Some (dom, domain_id) =>
          let call := (dom, m_func c, m_invert c, m_field_selection c) in
          match vtkmClip_Run dom (m_func c) (m_invert c) (m_field_selection c) with
          | inl e => ([call], inl e)
          | inr dataset =>
              let (log, r) := do_loop c (S i) f (data_set ++ [(dataset, domain_id)]) in
              (call :: log, r)
          end
      end
  end.

(** [Clip::DoExecute]: the calls made, normal return or the propagated
    exception, and the filter state afterwards ([m_output] is written only by
    the last statement). *)
Definition DoExecute (c : Clip) : list ClipCall * (Exn + unit) * Clip :=
  let num_domains := length (m_input c) in
  let (log, r) := do_loop c 0 num_domains [] in
  match r with
  | inl e => (log, inl e, c)
  | inr data_set =>
      match CleanGrid_Run data_set with
      | inl e => (log, inl e, c)
      | inr out =>
          (log, inr tt,
           {| m_input := m_input c; m_output := Some out;
              m_field_selection := m_field_selection c;
              m_func := m_func c; m_invert := m_invert c |})
      end
  end.

End ClipFilter.

Arguments mkClip {Mesh FieldSelection} _ _ _ _ _.
Arguments m_input {Mesh FieldSelection} _.
Arguments m_output {Mesh FieldSelection} _.
Arguments m_field_selection {Mesh FieldSelection} _.
Arguments m_func {Mesh FieldSelection} _.
Arguments m_invert {Mesh FieldSelection} _.
Arguments set_func {Mesh FieldSelection} _ _.
Arguments SetInvertClip {Mesh FieldSelection} _ _.
Arguments SetBoxClip {Mesh FieldSelection} _ _ _.
Arguments SetSphereClip {Mesh FieldSelection} _ _ _ _.
Arguments SetPlaneClip {Mesh FieldSelection} _ _ _ _.
Arguments Set2PlaneClip {Mesh FieldSelection} _ _ _ _ _ _ _.
Arguments Set3PlaneClip {Mesh FieldSelection} _ _ _ _ _ _ _ _ _.
Arguments do_loop {Mesh FieldSelection Exn} _ _ _ _ _.
Arguments DoExecute {Mesh FieldSelection Exn} _ _ _.

(** Non-strict order on extended scalars. *)
Definition ext_le (a b : ext) : Prop :=
  match a, b with
  | NegInf, _ => True
  | Fin _, NegInf => False
  | Fin x, Fin y => x <= y
  end.

(** Two multi-plane objects with the same active count [N] and the same
    point and normal in every slot [i < N]. *)
Definition active_slots_agree (mp1 mp2 : MultiPlane) : Prop :=
  m_num_planes mp1 = m_num_planes mp2 /\
  forall i : nat, (Z.of_nat i < m_num_planes mp1)%Z ->
    get (Points mp1) i = get (Points mp2) i /\ get (Normals mp1) i = get (Normals mp2) i.

(** Claim C7, as stated: every slot at index [N] and beyond is inert for
    both [Value] and [Gradient]. *)
Definition inactive_slots_inert_claim : Prop :=
  forall (mp1 mp2 : MultiPlane) (p : Vec3),
    active_slots_agree mp1 mp2 -> Value mp1 p = Value mp2 p /\ Gradient mp1 p = Gradient mp2 p.

(** Claim C8, as stated: reading the planes back after [Set2PlaneClip]
    gives the inputs in slots 0 and 1 and zeros in slot 2. *)
Definition set2plane_roundtrip_claim : Prop :=
  forall (Mesh FieldSelection : Type) (to_float RSqrt : Q -> Q) (c : Clip Mesh FieldSelection)
         (origin1 normal1 origin2 normal2 : Vec3),
    exists mp, m_func (Set2PlaneClip to_float RSqrt c origin1 normal1 origin2 normal2)
                 = Some (IFMultiPlane mp) /\
      GetPlanes mp = ([vconv to_float origin1; vconv to_float origin2; vzero],
                      [vconv to_float normal1; vconv to_float normal2; vzero]).

(** Claim C5, as stated for the plane count: a count outside [{2, 3}] makes
    [SetNumPlanes] fail its assertion. *)
Definition plane_count_asserted : Prop :=
  forall (mp : MultiPlane) (n : Z), (n < 2 \/ 3 < n)%Z -> SetNumPlanes mp n = AssertFail.

(** A [vtkm::RSqrt] that is exact on squares of rationals
    ([1 / (sqrt num / sqrt den)]); used to evaluate [Normalize] on
    concrete normals such as [(2, 0, 0)]. *)
Definition RSqrt_exact (q : Q) : Q :=
  Qinv (inject_Z (Z.sqrt (Qnum q)) / inject_Z (Z.sqrt (Zpos (Qden q)))).

(** The array sizes of a [MultiPlane]: [Vector Points[6]], [Vector Normals[6]]. *)
Definition mp_wf (mp : MultiPlane) : Prop :=
  length (Points mp) = 6%nat /\ length (Normals mp) = 6%nat.

(** One call of the public surface configuration of [vtkh::Clip]. *)
Inductive SurfaceSetter : Type :=
| CallSetBoxClip : Bounds -> SurfaceSetter
| CallSetSphereClip : Vec3 -> Q -> SurfaceSetter
| CallSetPlaneClip : Vec3 -> Vec3 -> SurfaceSetter
| CallSet2PlaneClip : Vec3 -> Vec3 -> Vec3 -> Vec3 -> SurfaceSetter
| CallSet3PlaneClip : Vec3 -> Vec3 -> Vec3 -> Vec3 -> Vec3 -> Vec3 -> SurfaceSetter.

(** Dispatches a [SurfaceSetter] to the member function it names. *)
Definition apply_surface {Mesh FieldSelection : Type} (to_float RSqrt : Q -> Q)
    (c : Clip Mesh FieldSelection) (s : SurfaceSetter) : Clip Mesh FieldSelection :=
  match s with
  | CallSetBoxClip b => SetBoxClip to_float c b
  | CallSetSphereClip center radius => SetSphereClip to_float c center radius
  | CallSetPlaneClip origin normal => SetPlaneClip to_float c origin normal
  | CallSet2PlaneClip o1 n1 o2 n2 => Set2PlaneClip to_float RSqrt c o1 n1 o2 n2
  | CallSet3PlaneClip o1 n1 o2 n2 o3 n3 => Set3PlaneClip to_float RSqrt c o1 n1 o2 n2 o3 n3
  end.

(** ** Loop lemmas of [Value] and [Gradient] *)

Section Loops.

Variables (mp : MultiPlane) (p : Vec3).

Let d := plane_val mp p.

Lemma Qle_bool_false x y : Qle_bool x y = false -> y < x.
Proof.
  intro H. apply Qnot_le_lt. intro H'. apply Qle_bool_iff in H'. congruence.
Qed.

Lemma value_loop_inv (f k idx : nat) :
  (idx < k)%nat -> (forall j, (j < k)%nat -> d j <= d idx) ->
  exists idx', (idx' < k + f)%nat /\ value_loop mp p k f (Fin (d idx)) = Fin (d idx') /\
               forall j, (j < k + f)%nat -> d j <= d idx'.
Proof.
  revert k idx. induction f as [|f IH]; intros k idx Hidx Hall; simpl.
  - exists idx. rewrite Nat.add_0_r. auto.
  - fold d. destruct (Qle_bool (d idx) (d k)) eqn:E.
    + apply Qle_bool_iff in E.
      destruct (IH (S k) k) as (i' & H1 & H2 & H3); [lia| |].
      * intros j Hj. destruct (Nat.eq_dec j k) as [->|Hne]; [apply Qle_refl|].
        apply Qle_trans with (d idx); [apply Hall; lia | exact E].
      * exists i'. repeat split; [lia | exact H2 | intros j Hj; apply H3; lia].
    + apply Qle_bool_false in E.
      destruct (IH (S k) idx) as (i' & H1 & H2 & H3); [lia| |].
      * intros j Hj. destruct (Nat.eq_dec j k) as [->|Hne]; [apply Qlt_le_weak, E|].
        apply Hall; lia.
      * exists i'. repeat split; [lia | exact H2 | intros j Hj; apply H3; lia].
Qed.

Lemma value_loop_start (n : nat) :
  (n = 0%nat /\ value_loop mp p 0 n NegInf = NegInf) \/
  (exists i, (i < n)%nat /\ value_loop mp p 0 n NegInf = Fin (d i) /\
             forall j, (j < n)%nat -> d j <= d i).
Proof.
  destruct n as [|f]; [left; auto|right]. simpl.
  destruct (value_loop_inv f 1 0) as (i & H1 & H2 & H3).
  - lia.
  - intros j Hj. replace j with 0%nat by lia. apply Qle_refl.
  - exists i. split; [exact H1|]. split; [exact H2|exact H3].
Qed.

(** The invariant of [Gradient]'s loop once the first plane is read:
    [maxValIdx] is the first index of a maximal value seen so far. *)
Lemma gradient_loop_inv (f k idx : nat) :
  (idx < k)%nat -> (forall j, (j < k)%nat -> d j <= d idx) ->
  (forall j, (j < idx)%nat -> d j < d idx) ->
  let r := gradient_loop mp p k f (Fin (d idx)) idx in
  (r < k + f)%nat /\ (forall j, (j < k + f)%nat -> d j <= d r) /\
  (forall j, (j < r)%nat -> d j < d r).
Proof.
  revert k idx. induction f as [|f IH]; intros k idx Hidx Hall Hfirst; simpl.
  - rewrite Nat.add_0_r. auto.
  - fold d. destruct (Qle_bool (d k) (d idx)) eqn:E; simpl.
    + apply Qle_bool_iff in E.
      destruct (IH (S k) idx) as (H1 & H2 & H3); [lia| |exact Hfirst|].
      * intros j Hj. destruct (Nat.eq_dec j k) as [->|Hne]; [exact E|]. apply Hall; lia.
      * split; [lia|]. split; [intros j Hj; apply H2; lia|exact H3].
    + apply Qle_bool_false in E.
      destruct (IH (S k) k) as (H1 & H2 & H3); [lia| | |].
      * intros j Hj. destruct (Nat.eq_dec j k) as [->|Hne]; [apply Qle_refl|].
        apply Qle_trans with (d idx); [apply Hall; lia|apply Qlt_le_weak, E].
      * intros j Hj. apply Qle_lt_trans with (d idx); [apply Hall; lia|exact E].
      * split; [lia|]. split; [intros j Hj; apply H2; lia|exact H3].
Qed.

Lemma gradient_loop_start (f : nat) :
  let r := gradient_loop mp p 0 (S f) NegInf 0 in
  (r < S f)%nat /\ (forall j, (j < S f)%nat -> d j <= d r) /\
  (forall j, (j < r)%nat -> d j < d r).
Proof.
  simpl. fold d.
  destruct (gradient_loop_inv f 1 0) as (H1 & H2 & H3).
  - lia.
  - intros j Hj. replace j with 0%nat by lia. apply Qle_refl.
  - intros j Hj. lia.
  - auto.
Qed.

End Loops.

(** The loops read the planes only at the indices they visit. *)
Lemma value_loop_ext (mp1 mp2 : MultiPlane) (p : Vec3) (f k : nat) (m : ext) :
  (forall j, (k <= j < k + f)%nat -> plane_val mp1 p j = plane_val mp2 p j) ->
  value_loop mp1 p k f m = value_loop mp2 p k f m.
Proof.
  revert k m. induction f as [|f IH]; intros k m H; simpl; [reflexivity|].
  rewrite (H k) by lia. apply IH. intros j Hj. apply H. lia.
Qed.

Lemma gradient_loop_ext (mp1 mp2 : MultiPlane) (p : Vec3) (f k idx : nat) (m : ext) :
  (forall j, (k <= j < k + f)%nat -> plane_val mp1 p j = plane_val mp2 p j) ->
  gradient_loop mp1 p k f m idx = gradient_loop mp2 p k f m idx.
Proof.
  revert k m idx. induction f as [|f IH]; intros k m idx H; simpl; [reflexivity|].
  rewrite (H k) by lia.
  unfold ext_gtb. destruct m as [|y]; [|destruct (negb _)];
    apply IH; intros j Hj; apply H; lia.
Qed.

Lemma active_slots_plane_val (mp1 mp2 : MultiPlane) (p : Vec3) (j : nat) :
  active_slots_agree mp1 mp2 -> (Z.of_nat j < m_num_planes mp1)%Z ->
  plane_val mp1 p j = plane_val mp2 p j.
Proof.
  intros [_ Hs] Hj. unfold plane_val. destruct (Hs j Hj) as [-> ->]. reflexivity.
Qed.

(** ** Claims on [MultiPlane::Value] and [MultiPlane::Gradient] *)

(** Claim C1: [Value(p)] is the maximum of [d_i = Dot(p - point_i, normal_i)]
    over the active planes [i < N] ([vtkm::NegativeInfinity] when there is
    none); hence it is negative when every [d_i] is negative and positive
    when some [d_i] is positive. *)
Theorem Value_is_max_over_active_planes (mp : MultiPlane) (p : Vec3) :
  let N := m_num_planes mp in
  let d := plane_val mp p in
  (forall i : nat, (Z.of_nat i < N)%Z -> ext_le (Fin (d i)) (Value mp p)) /\
  ((N <= 0)%Z -> Value mp p = NegInf) /\
  ((0 < N)%Z -> exists i : nat, (Z.of_nat i < N)%Z /\ Value mp p = Fin (d i)) /\
  ((forall i : nat, (Z.of_nat i < N)%Z -> d i < 0) -> ext_lt (Value mp p) (Fin 0)) /\
  ((exists i : nat, (Z.of_nat i < N)%Z /\ 0 < d i) -> ext_lt (Fin 0) (Value mp p)).
Proof.
  cbv zeta. unfold Value.
  set (N := m_num_planes mp). set (d := plane_val mp p).
  assert (HN : forall i : nat, (Z.of_nat i < N)%Z <-> (i < Z.to_nat N)%nat) by (intro; lia).
  destruct (value_loop_start mp p (Z.to_nat N)) as [[Hn ->] | (i & Hi & Hv & Hmax)];
    try fold d in Hmax, Hv.
  - refine (conj _ (conj _ (conj _ (conj _ _)))); intros.
    + exfalso. lia.
    + reflexivity.
    + exfalso. lia.
    + simpl. exact I.
    + destruct H as (i & Hi & _). exfalso. lia.
  - rewrite Hv. refine (conj _ (conj _ (conj _ (conj _ _)))); intros.
    + apply Hmax, HN. assumption.
    + lia.
    + exists i. split; [apply HN; exact Hi|reflexivity].
    + apply H, HN. exact Hi.
    + destruct H as (j & Hj & Hpos). simpl.
      apply Qlt_le_trans with (d j); [exact Hpos|apply Hmax, HN, Hj].
Qed.

(** Claim C2: with at least one active plane, [Gradient(p)] is the normal of
    an active plane [i] whose [d_i] is maximal, and every plane before [i]
    has a strictly smaller value: on ties the lowest index wins. *)
Theorem Gradient_first_argmax (mp : MultiPlane) (p : Vec3)
    (HN : (1 <= m_num_planes mp)%Z) :
  let N := m_num_planes mp in
  let d := plane_val mp p in
  exists i : nat, (Z.of_nat i < N)%Z /\ Gradient mp p = get (Normals mp) i /\
    (forall j : nat, (Z.of_nat j < N)%Z -> d j <= d i) /\
    (forall j : nat, (j < i)%nat -> d j < d i).
Proof.
  cbv zeta. unfold Gradient.
  set (N := m_num_planes mp) in *.
  destruct (Z.to_nat N) as [|f] eqn:E; [lia|].
  destruct (gradient_loop_start mp p f) as (H1 & H2 & H3).
  eexists. split; [|split; [reflexivity|split]].
  - lia.
  - intros j Hj. apply H2. lia.
  - exact H3.
Qed.

(** Claim C7, refuted: with no active plane, [Gradient] still returns
    [Normals[0]], the default of [maxValIdx], a slot beyond [N = 0]. *)
Lemma inactive_slots_inert_counterexample : ~ inactive_slots_inert_claim.
Proof.
  unfold inactive_slots_inert_claim. intro H.
  set (mp1 := {| Points := Points MultiPlane_default; Normals := Normals MultiPlane_default;
                 m_num_planes := 0; ModifiedCount := 0 |}).
  set (mp2 := {| Points := Points MultiPlane_default;
                 Normals := set_nth (Normals MultiPlane_default) 0 (mkVec3 0 0 1);
                 m_num_planes := 0; ModifiedCount := 0 |}).
  destruct (H mp1 mp2 vzero) as [_ Hg].
  - split; [reflexivity|]. intros i Hi. simpl in Hi. lia.
  - vm_compute in Hg. discriminate Hg.
Qed.

(** Claim C7, amended: slots at index [N] and beyond never affect [Value];
    they never affect [Gradient] either when [N >= 1]; when [N <= 0],
    [Gradient] returns the normal stored in slot 0. *)
Theorem inactive_slots_inert (mp1 mp2 : MultiPlane) (p : Vec3)
    (Hagree : active_slots_agree mp1 mp2) :
  Value mp1 p = Value mp2 p /\
  ((1 <= m_num_planes mp1)%Z -> Gradient mp1 p = Gradient mp2 p) /\
  ((m_num_planes mp1 <= 0)%Z -> Gradient mp1 p = get (Normals mp1) 0).
Proof.
  pose proof Hagree as [HN _].
  assert (Hpv : forall j, (0 <= j < 0 + Z.to_nat (m_num_planes mp1))%nat ->
                plane_val mp1 p j = plane_val mp2 p j).
  { intros j Hj. apply active_slots_plane_val; [exact Hagree|lia]. }
  split; [|split].
  - unfold Value. rewrite <- HN. apply value_loop_ext. exact Hpv.
  - intros H1. unfold Gradient.
    rewrite <- HN, <- (gradient_loop_ext mp1 mp2 p _ 0 0 NegInf Hpv).
    destruct Hagree as [_ Hs].
    destruct (Z.to_nat (m_num_planes mp1)) as [|f] eqn:E; [lia|].
    destruct (gradient_loop_start mp1 p f) as (Hr & _ & _).
    refine (proj2 (Hs _ _)). cbv zeta in Hr. lia.
  - intros H0. unfold Gradient. replace (Z.to_nat (m_num_planes mp1)) with 0%nat by lia.
    reflexivity.
Qed.

(** Witness of the amended claim C7 on two objects with two active planes
    that differ in slot 2. *)
Lemma inactive_slots_inert_witness :
  let mp1 := MultiPlane_make [mkVec3 0 0 0; mkVec3 1 0 0; vzero]
                             [mkVec3 1 0 0; mkVec3 0 1 0; vzero] 2 in
  let mp2 := MultiPlane_make [mkVec3 0 0 0; mkVec3 1 0 0; mkVec3 5 5 5]
                             [mkVec3 1 0 0; mkVec3 0 1 0; mkVec3 0 0 1] 2 in
  active_slots_agree mp1 mp2 /\
  (Value mp1 (mkVec3 3 1 2) = Value mp2 (mkVec3 3 1 2) /\
   ((1 <= m_num_planes mp1)%Z -> Gradient mp1 (mkVec3 3 1 2) = Gradient mp2 (mkVec3 3 1 2)) /\
   ((m_num_planes mp1 <= 0)%Z -> Gradient mp1 (mkVec3 3 1 2) = get (Normals mp1) 0)).
Proof.
  intros mp1 mp2.
  assert (Ha : active_slots_agree mp1 mp2).
  { split; [reflexivity|]. intros i Hi. simpl in Hi.
    destruct i as [|[|i]]; [split; reflexivity|split; reflexivity|lia]. }
  split; [exact Ha|]. apply (inactive_slots_inert mp1 mp2 (mkVec3 3 1 2) Ha).
Defined.

(** Witness of claim C2 on two planes through the origin with different
    normals and equal values at [(1,1,0)]: slot 0 wins the tie. *)
Lemma Gradient_first_argmax_witness :
  let mp := MultiPlane_make [vzero; vzero; vzero] [mkVec3 1 0 0; mkVec3 0 1 0; vzero] 2 in
  (1 <= m_num_planes mp)%Z /\
  exists i : nat, (Z.of_nat i < m_num_planes mp)%Z /\
    Gradient mp (mkVec3 1 1 0) = get (Normals mp) i /\
    (forall j : nat, (Z.of_nat j < m_num_planes mp)%Z ->
       plane_val mp (mkVec3 1 1 0) j <= plane_val mp (mkVec3 1 1 0) i) /\
    (forall j : nat, (j < i)%nat -> plane_val mp (mkVec3 1 1 0) j < plane_val mp (mkVec3 1 1 0) i).
Proof.
  intros mp. assert (H : (1 <= m_num_planes mp)%Z) by (simpl; lia).
  split; [exact H|]. exact (Gradient_first_argmax mp (mkVec3 1 1 0) H).
Defined.

Example Gradient_tie_lowest_index :
  Gradient (MultiPlane_make [vzero; vzero; vzero] [mkVec3 1 0 0; mkVec3 0 1 0; vzero] 2)
           (mkVec3 1 1 0) = mkVec3 1 0 0.
Proof. vm_compute. reflexivity. Qed.

(** ** [Clip::DoExecute] *)

Lemma nth_error_skipn_cons {A} (l : list A) (i : nat) (x : A) :
  nth_error l i = Some x -> skipn i l = x :: skipn (S i) l.
Proof.
  revert i. induction l as [|h t IH]; intros [|i] H; simpl in *; try discriminate.
  - inversion H. reflexivity.
  - apply IH. exact H.
Qed.

Section DoExecuteProofs.

Local Open Scope nat_scope.

Variables (Mesh FieldSelection Exn : Type).
Variable vtkmClip_Run : Mesh -> ImplicitFunctionHandle -> bool -> FieldSelection -> Exn + Mesh.
Variable CleanGrid_Run : DataSet Mesh -> Exn + DataSet Mesh.
Variable c : Clip Mesh FieldSelection.

Let call (dm : Mesh * Z) : ClipCall Mesh FieldSelection :=
  (fst dm, m_func c, m_invert c, m_field_selection c).
Let clipped (dm : Mesh * Z) (out : Mesh) : Prop :=
  vtkmClip_Run (fst dm) (m_func c) (m_invert c) (m_field_selection c) = inr out.

Lemma do_loop_all_ok (fuel i : nat) (acc : DataSet Mesh) (outs : list Mesh) :
  i + fuel = length (m_input c) ->
  Forall2 clipped (skipn i (m_input c)) outs ->
  do_loop vtkmClip_Run c i fuel acc =
    (map call (skipn i (m_input c)), inr (acc ++ combine outs (map snd (skipn i (m_input c))))).
Proof.
  revert i acc outs. induction fuel as [|f IH]; intros i acc outs Hlen Hall; simpl.
  - rewrite skipn_all2 in * by lia. inversion Hall; subst. simpl.
    rewrite app_nil_r. reflexivity.
  - destruct (nth_error (m_input c) i) as [[dom id]|] eqn:E.
    2:{ apply nth_error_None in E. lia. }
    rewrite (nth_error_skipn_cons _ _ _ E) in Hall |- *.
    inversion Hall as [|dm out dms outs' Hc Hrest]; subst.
    unfold clipped in Hc. simpl in Hc. rewrite Hc.
    rewrite (IH (S i) _ outs' ltac:(lia) Hrest). simpl.
    rewrite <- app_assoc. reflexivity.
Qed.

Lemma do_loop_fail_at (k fuel i : nat) (acc : DataSet Mesh) (outs : list Mesh)
    (dom : Mesh) (id : Z) (e : Exn) :
  i + fuel = length (m_input c) ->
  Forall2 clipped (firstn k (skipn i (m_input c))) outs ->
  nth_error (m_input c) (i + k) = Some (dom, id) ->
  vtkmClip_Run dom (m_func c) (m_invert c) (m_field_selection c) = inl e ->
  do_loop vtkmClip_Run c i fuel acc = (map call (firstn (S k) (skipn i (m_input c))), inl e).
Proof.
  revert fuel i acc outs. induction k as [|k IH]; intros fuel i acc outs Hlen Hpre Hk Hfail.
  - rewrite Nat.add_0_r in Hk.
    assert (Hi : i < length (m_input c)) by (apply nth_error_Some; congruence).
    destruct fuel as [|f]; [lia|]. simpl. rewrite Hk, Hfail.
    rewrite (nth_error_skipn_cons _ _ _ Hk). reflexivity.
  - assert (Hi : (i < length (m_input c))%nat).
    { assert (i + S k < length (m_input c))%nat by (apply nth_error_Some; congruence). lia. }
    destruct fuel as [|f]; [lia|].
    destruct (nth_error (m_input c) i) as [[dom0 id0]|] eqn:E.
    2:{ apply nth_error_None in E. lia. }
    rewrite (nth_error_skipn_cons _ _ _ E) in Hpre |- *.
    simpl in Hpre. inversion Hpre as [|dm out dms outs' Hc Hrest]; subst.
    simpl. rewrite E. unfold clipped in Hc. simpl in Hc. rewrite Hc.
    rewrite (IH f (S i) _ outs' ltac:(lia) Hrest
               ltac:(replace (S i + k) with (i + S k) by lia; exact Hk) Hfail).
    reflexivity.
Qed.

(** Claim C3: when [vtkmClip::Run] returns a mesh for every domain,
    [DoExecute] calls it once per domain, in index order, with the domain's
    mesh, the configured implicit function, the invert flag and the field
    selection; it assembles the returned meshes under the input's domain ids
    and hands that data set to [CleanGrid], whose result becomes the output. *)
Theorem DoExecute_clips_every_domain_then_cleans (outs : list Mesh)
    (Hclip : Forall2 clipped (m_input c) outs) :
  let data_set := combine outs (map snd (m_input c)) in
  DoExecute vtkmClip_Run CleanGrid_Run c =
    match CleanGrid_Run data_set with
    | inl e => (map call (m_input c), inl e, c)
    | inr out =>
        (map call (m_input c), inr tt,
         mkClip (m_input c) (Some out) (m_field_selection c) (m_func c) (m_invert c))
    end.
Proof.
  intros data_set. unfold DoExecute.
  rewrite (do_loop_all_ok (length (m_input c)) 0 [] outs eq_refl Hclip).
  reflexivity.
Qed.

(** Claim C6: an exception of [vtkmClip::Run] leaves [DoExecute]: the filter
    state, [m_output] included, is the one before the run; and when domain [k]
    is the first to fail, the calls made are exactly one per domain [0..k],
    in order, and nothing after it. *)
Theorem DoExecute_clip_failure_aborts (k : nat) (dom : Mesh) (id : Z) (e : Exn)
    (outs : list Mesh)
    (Hpre : Forall2 clipped (firstn k (m_input c)) outs)
    (Hk : nth_error (m_input c) k = Some (dom, id))
    (Hfail : vtkmClip_Run dom (m_func c) (m_invert c) (m_field_selection c) = inl e) :
  DoExecute vtkmClip_Run CleanGrid_Run c = (map call (firstn (S k) (m_input c)), inl e, c) /\
  (forall log e' c', DoExecute vtkmClip_Run CleanGrid_Run c = (log, inl e', c') -> c' = c).
Proof.
  split.
  - unfold DoExecute.
    rewrite (do_loop_fail_at k (length (m_input c)) 0 [] outs dom id e eq_refl Hpre Hk Hfail).
    reflexivity.
  - intros log e' c'. unfold DoExecute.
    destruct (do_loop vtkmClip_Run c 0 (length (m_input c)) []) as [l [e0|ds]].
    + intro H. inversion H. reflexivity.
    + destruct (CleanGrid_Run ds); intro H; inversion H. reflexivity.
Qed.

End DoExecuteProofs.

(** Witness of claim C3: two domains with ids 7 and 3, a clip that doubles
    the mesh and an identity clean-up. *)
Lemma DoExecute_clips_every_domain_then_cleans_witness :
  let run := fun (m : nat) (_ : ImplicitFunctionHandle) (_ : bool) (_ : unit) => (inr (2 * m)%nat : unit + nat) in
  let clean := fun (ds : DataSet nat) => (inr ds : unit + DataSet nat) in
  let c := mkClip [(1%nat, 7%Z); (2%nat, 3%Z)] None tt None false in
  Forall2 (fun dm out => run (fst dm) (m_func c) (m_invert c) (m_field_selection c) = inr out)
          (m_input c) [2%nat; 4%nat] /\
  DoExecute run clean c =
    match clean (combine [2%nat; 4%nat] (map snd (m_input c))) with
    | inl e => (map (fun dm => (fst dm, m_func c, m_invert c, m_field_selection c)) (m_input c), inl e, c)
    | inr out =>
        (map (fun dm => (fst dm, m_func c, m_invert c, m_field_selection c)) (m_input c), inr tt,
         mkClip (m_input c) (Some out) (m_field_selection c) (m_func c) (m_invert c))
    end.
Proof.
  intros run clean c.
  assert (H : Forall2 (fun dm out => run (fst dm) (m_func c) (m_invert c) (m_field_selection c) = inr out)
                      (m_input c) [2%nat; 4%nat]) by (repeat constructor).
  split; [exact H|].
  exact (DoExecute_clips_every_domain_then_cleans nat unit unit run clean c [2%nat; 4%nat] H).
Defined.

(** Witness of claim C6: the second of three domains makes the clip throw. *)
Lemma DoExecute_clip_failure_aborts_witness :
  let run := fun (m : nat) (_ : ImplicitFunctionHandle) (_ : bool) (_ : unit) =>
               (if Nat.eqb m 2 then inl tt else inr m : unit + nat) in
  let clean := fun (ds : DataSet nat) => (inr ds : unit + DataSet nat) in
  let c := mkClip [(1%nat, 7%Z); (2%nat, 3%Z); (5%nat, 0%Z)] None tt None true in
  Forall2 (fun dm out => run (fst dm) (m_func c) (m_invert c) (m_field_selection c) = inr out)
          (firstn 1 (m_input c)) [1%nat] /\
  nth_error (m_input c) 1 = Some (2%nat, 3%Z) /\
  run 2%nat (m_func c) (m_invert c) (m_field_selection c) = inl tt /\
  (DoExecute run clean c =
     (map (fun dm => (fst dm, m_func c, m_invert c, m_field_selection c)) (firstn 2 (m_input c)),
      inl tt, c) /\
   (forall log e' c', DoExecute run clean c = (log, inl e', c') -> c' = c)).
Proof.
  intros run clean c.
  assert (H1 : Forall2 (fun dm out => run (fst dm) (m_func c) (m_invert c) (m_field_selection c) = inr out)
                       (firstn 1 (m_input c)) [1%nat]) by (repeat constructor).
  assert (H2 : nth_error (m_input c) 1 = Some (2%nat, 3%Z)) by reflexivity.
  assert (H3 : run 2%nat (m_func c) (m_invert c) (m_field_selection c) = inl tt) by reflexivity.
  split; [exact H1|]. split; [exact H2|]. split; [exact H3|].
  exact (DoExecute_clip_failure_aborts nat unit unit run clean c 1 2%nat 3%Z tt [1%nat] H1 H2 H3).
Defined.

(** ** The configuration setters of [vtkh::Clip] *)

(** What [Set2PlaneClip] installs. *)
Lemma Set2PlaneClip_planes (Mesh FieldSelection : Type) (to_float RSqrt : Q -> Q)
    (c : Clip Mesh FieldSelection) (origin1 normal1 origin2 normal2 : Vec3) :
  let mp := MultiPlane_make [vconv to_float origin1; vconv to_float origin2; vzero]
              [Normalize RSqrt (vconv to_float normal1); Normalize RSqrt (vconv to_float normal2); vzero] 2 in
  m_func (Set2PlaneClip to_float RSqrt c origin1 normal1 origin2 normal2) = Some (IFMultiPlane mp) /\
  Points mp = [vconv to_float origin1; vconv to_float origin2; vzero; vzero; vzero; vzero] /\
  Normals mp = [Normalize RSqrt (vconv to_float normal1); Normalize RSqrt (vconv to_float normal2);
                vzero; vzero; vzero; vzero] /\
  m_num_planes mp = 2%Z /\ ModifiedCount mp = 1%nat.
Proof. repeat split. Qed.

(** What [Set3PlaneClip] installs. *)
Lemma Set3PlaneClip_planes (Mesh FieldSelection : Type) (to_float RSqrt : Q -> Q)
    (c : Clip Mesh FieldSelection) (origin1 normal1 origin2 normal2 origin3 normal3 : Vec3) :
  let mp := MultiPlane_make [vconv to_float origin1; vconv to_float origin2; vconv to_float origin3]
              [Normalize RSqrt (vconv to_float normal1); Normalize RSqrt (vconv to_float normal2);
               Normalize RSqrt (vconv to_float normal3)] 3 in
  m_func (Set3PlaneClip to_float RSqrt c origin1 normal1 origin2 normal2 origin3 normal3)
    = Some (IFMultiPlane mp) /\
  Points mp = [vconv to_float origin1; vconv to_float origin2; vconv to_float origin3;
               vzero; vzero; vzero] /\
  Normals mp = [Normalize RSqrt (vconv to_float normal1); Normalize RSqrt (vconv to_float normal2);
                Normalize RSqrt (vconv to_float normal3); vzero; vzero; vzero] /\
  m_num_planes mp = 3%Z.
Proof. repeat split. Qed.

(** [vtkm::Normalize] gives a unit vector wherever [RSqrt] is the exact
    reciprocal square root. *)
Lemma Normalize_unit (RSqrt : Q -> Q) (w : Vec3) :
  RSqrt (Dot w w) * RSqrt (Dot w w) * Dot w w == 1 ->
  Dot (Normalize RSqrt w) (Normalize RSqrt w) == 1.
Proof.
  intro H. rewrite <- H. unfold Normalize, Dot, vscale. simpl. ring.
Qed.

(** Claim C4: [Set2PlaneClip] installs a [MultiPlane] whose slots 0 and 1
    hold the origins converted to float and the normalised converted
    normals, slot 2 the zero point and zero normal, and count 2;
    [Set3PlaneClip] stores the three converted origins and the three
    normalised normals with count 3.  [vtkm::Normalize] returns a unit vector
    wherever [RSqrt] is exact. *)
Theorem SetNPlaneClip_configure (Mesh FieldSelection : Type) (to_float RSqrt : Q -> Q)
    (c : Clip Mesh FieldSelection) (origin1 normal1 origin2 normal2 origin3 normal3 : Vec3) :
  (exists mp, m_func (Set2PlaneClip to_float RSqrt c origin1 normal1 origin2 normal2)
                = Some (IFMultiPlane mp) /\
     get (Points mp) 0 = vconv to_float origin1 /\ get (Points mp) 1 = vconv to_float origin2 /\
     get (Points mp) 2 = vzero /\
     get (Normals mp) 0 = Normalize RSqrt (vconv to_float normal1) /\
     get (Normals mp) 1 = Normalize RSqrt (vconv to_float normal2) /\
     get (Normals mp) 2 = vzero /\
     m_num_planes mp = 2%Z) /\
  (exists mp, m_func (Set3PlaneClip to_float RSqrt c origin1 normal1 origin2 normal2 origin3 normal3)
                = Some (IFMultiPlane mp) /\
     get (Points mp) 0 = vconv to_float origin1 /\ get (Points mp) 1 = vconv to_float origin2 /\
     get (Points mp) 2 = vconv to_float origin3 /\
     get (Normals mp) 0 = Normalize RSqrt (vconv to_float normal1) /\
     get (Normals mp) 1 = Normalize RSqrt (vconv to_float normal2) /\
     get (Normals mp) 2 = Normalize RSqrt (vconv to_float normal3) /\
     m_num_planes mp = 3%Z) /\
  (forall w, RSqrt (Dot w w) * RSqrt (Dot w w) * Dot w w == 1 ->
     Dot (Normalize RSqrt w) (Normalize RSqrt w) == 1).
Proof.
  split; [|split].
  - destruct (Set2PlaneClip_planes Mesh FieldSelection to_float RSqrt c origin1 normal1 origin2 normal2)
      as (Hf & Hp & Hn & Hc & _).
    eexists. split; [exact Hf|]. unfold get. rewrite Hp, Hn. repeat split; auto.
  - destruct (Set3PlaneClip_planes Mesh FieldSelection to_float RSqrt c origin1 normal1 origin2 normal2
                origin3 normal3) as (Hf & Hp & Hn & Hc).
    eexists. split; [exact Hf|]. unfold get. rewrite Hp, Hn. repeat split; auto.
  - apply Normalize_unit.
Qed.

(** Claim C8, refuted: [Set2PlaneClip] with the normal [(2, 0, 0)] stores
    the unit normal [(1, 0, 0)], which [GetPlanes] returns. *)
Lemma set2plane_roundtrip_counterexample : ~ set2plane_roundtrip_claim.
Proof.
  unfold set2plane_roundtrip_claim. intro H.
  destruct (H unit unit (fun q => q) RSqrt_exact (mkClip [] None tt None false)
              vzero (mkVec3 2 0 0) vzero (mkVec3 0 1 0)) as (mp & Hf & Hg).
  simpl in Hf. injection Hf as <-. vm_compute in Hg. discriminate Hg.
Qed.

(** Claim C8, amended: after [Set2PlaneClip], [GetPlanes] returns in slots 0
    and 1 the origins converted to float and the normals converted to float
    and normalised, and the zero point and zero normal in slot 2;
    [GetPoints] and [GetNormals] give the same with zeros in slots 3 to 5. *)
Theorem set2plane_roundtrip (Mesh FieldSelection : Type) (to_float RSqrt : Q -> Q)
    (c : Clip Mesh FieldSelection) (origin1 normal1 origin2 normal2 : Vec3) :
  exists mp, m_func (Set2PlaneClip to_float RSqrt c origin1 normal1 origin2 normal2)
               = Some (IFMultiPlane mp) /\
    GetPlanes mp = ([vconv to_float origin1; vconv to_float origin2; vzero],
                    [Normalize RSqrt (vconv to_float normal1);
                     Normalize RSqrt (vconv to_float normal2); vzero]) /\
    GetPoints mp = [vconv to_float origin1; vconv to_float origin2; vzero; vzero; vzero; vzero] /\
    GetNormals mp = [Normalize RSqrt (vconv to_float normal1);
                     Normalize RSqrt (vconv to_float normal2); vzero; vzero; vzero; vzero].
Proof.
  destruct (Set2PlaneClip_planes Mesh FieldSelection to_float RSqrt c origin1 normal1 origin2 normal2)
    as (Hf & Hp & Hn & _).
  eexists. split; [exact Hf|]. unfold GetPlanes, GetPoints, GetNormals, get.
  rewrite Hp, Hn. repeat split.
Qed.

(** Claim C5, refuted: [SetNumPlanes(7)] returns normally. *)
Lemma plane_count_asserted_counterexample : ~ plane_count_asserted.
Proof.
  unfold plane_count_asserted. intro H.
  specialize (H MultiPlane_default 7%Z (or_intror eq_refl)). discriminate H.
Qed.

(** Claim C5, amended: no assertion guards the plane count or the normals.
    [SetNumPlanes] and the constructor store any count; [Set2PlaneClip] and
    [Set3PlaneClip] configure a surface for any normals and store
    [Normalize] of a zero normal in that normal's slot without a check; the
    one assertion of the setters is [SetPlane]'s slot index check
    [0 <= idx < 3]. *)
Theorem construction_checks (Mesh FieldSelection : Type) :
  (forall (mp : MultiPlane) (n : Z),
     exists mp', SetNumPlanes mp n = Ok mp' /\ m_num_planes mp' = n) /\
  (forall (points normals : list Vec3) (n : Z),
     m_num_planes (MultiPlane_make points normals n) = n) /\
  (forall (mp : MultiPlane) (idx : Z) (point normal : Vec3),
     SetPlane mp idx point normal = AssertFail <-> ~ (0 <= idx < 3)%Z) /\
  (forall (to_float RSqrt : Q -> Q) (c : Clip Mesh FieldSelection)
          (origin1 normal1 origin2 normal2 : Vec3),
     exists mp, m_func (Set2PlaneClip to_float RSqrt c origin1 normal1 origin2 normal2)
                  = Some (IFMultiPlane mp) /\
       (vconv to_float normal1 = vzero -> get (Normals mp) 0 = Normalize RSqrt vzero) /\
       (vconv to_float normal2 = vzero -> get (Normals mp) 1 = Normalize RSqrt vzero)) /\
  (forall (to_float RSqrt : Q -> Q) (c : Clip Mesh FieldSelection)
          (origin1 normal1 origin2 normal2 origin3 normal3 : Vec3),
     exists mp, m_func (Set3PlaneClip to_float RSqrt c origin1 normal1 origin2 normal2 origin3 normal3)
                  = Some (IFMultiPlane mp) /\
       (vconv to_float normal1 = vzero -> get (Normals mp) 0 = Normalize RSqrt vzero) /\
       (vconv to_float normal2 = vzero -> get (Normals mp) 1 = Normalize RSqrt vzero) /\
       (vconv to_float normal3 = vzero -> get (Normals mp) 2 = Normalize RSqrt vzero)).
Proof.
  split; [|split; [|split; [|split]]].
  - intros mp n. eexists. split; reflexivity.
  - reflexivity.
  - intros mp idx point normal. unfold SetPlane.
    destruct ((0 <=? idx)%Z && (idx <? 3)%Z) eqn:E.
    + apply andb_true_iff in E as [E1 E2]. apply Z.leb_le in E1. apply Z.ltb_lt in E2.
      split; [discriminate|]. intro H. exfalso. apply H. lia.
    + split; [intros _|reflexivity]. intros [H1 H2].
      apply Z.leb_le in H1. apply Z.ltb_lt in H2. rewrite H1, H2 in E. discriminate.
  - intros to_float RSqrt c origin1 normal1 origin2 normal2.
    destruct (Set2PlaneClip_planes Mesh FieldSelection to_float RSqrt c origin1 normal1 origin2 normal2)
      as (Hf & _ & Hn & _).
    eexists. split; [exact Hf|]. unfold get. rewrite Hn. simpl.
    split; intro Hz; rewrite Hz; reflexivity.
  - intros to_float RSqrt c origin1 normal1 origin2 normal2 origin3 normal3.
    destruct (Set3PlaneClip_planes Mesh FieldSelection to_float RSqrt c origin1 normal1 origin2 normal2
                origin3 normal3) as (Hf & _ & Hn & _).
    eexists. split; [exact Hf|]. unfold get. rewrite Hn. simpl.
    split; [|split]; intro Hz; rewrite Hz; reflexivity.
Qed.

(** Claim C9: [SetPlanes], [SetPlane] and [SetNumPlanes] bump the
    modification counter by one before returning.  The read-only accessors
    ([GetPlanes], [GetPoints], [GetNormals], [Value], [Gradient]) are [const]
    and return no new object state. *)
Theorem setters_mark_modified :
  (forall (mp : MultiPlane) (points normals : list Vec3),
     ModifiedCount (SetPlanes mp points normals) = S (ModifiedCount mp)) /\
  (forall (mp mp' : MultiPlane) (idx : Z) (point normal : Vec3),
     SetPlane mp idx point normal = Ok mp' -> ModifiedCount mp' = S (ModifiedCount mp)) /\
  (forall (mp mp' : MultiPlane) (num : Z),
     SetNumPlanes mp num = Ok mp' -> ModifiedCount mp' = S (ModifiedCount mp)).
Proof.
  split; [|split].
  - reflexivity.
  - intros mp mp' idx point normal. unfold SetPlane.
    destruct (_ && _); intro H; inversion H; reflexivity.
  - intros mp mp' num H. inversion H. reflexivity.
Qed.

(** Claim C10: [SetInvertClip] writes only [m_invert]; each surface setter
    writes only the implicit-function handle. *)
Theorem setters_frame (Mesh FieldSelection : Type) (to_float RSqrt : Q -> Q)
    (c : Clip Mesh FieldSelection) :
  (forall invert : bool,
     SetInvertClip c invert
       = mkClip (m_input c) (m_output c) (m_field_selection c) (m_func c) invert) /\
  (forall b : Bounds, exists f,
     SetBoxClip to_float c b
       = mkClip (m_input c) (m_output c) (m_field_selection c) (Some f) (m_invert c)) /\
  (forall (center : Vec3) (radius : Q), exists f,
     SetSphereClip to_float c center radius
       = mkClip (m_input c) (m_output c) (m_field_selection c) (Some f) (m_invert c)) /\
  (forall origin normal : Vec3, exists f,
     SetPlaneClip to_float c origin normal
       = mkClip (m_input c) (m_output c) (m_field_selection c) (Some f) (m_invert c)) /\
  (forall origin1 normal1 origin2 normal2 : Vec3, exists f,
     Set2PlaneClip to_float RSqrt c origin1 normal1 origin2 normal2
       = mkClip (m_input c) (m_output c) (m_field_selection c) (Some f) (m_invert c)) /\
  (forall origin1 normal1 origin2 normal2 origin3 normal3 : Vec3, exists f,
     Set3PlaneClip to_float RSqrt c origin1 normal1 origin2 normal2 origin3 normal3
       = mkClip (m_input c) (m_output c) (m_field_selection c) (Some f) (m_invert c)).
Proof.
  repeat split; intros; eexists; reflexivity.
Qed.

(** ** Further properties of [MultiPlane] *)


Lemma nth_set_nth_eq {A} (l : list A) (i : nat) (v d : A) :
  (i < length l)%nat -> nth i (set_nth l i v) d = v.
Proof.
  revert i. induction l as [|h t IH]; intros [|i] H; simpl in *; try lia; auto.
  apply IH. lia.
Qed.

Lemma nth_set_nth_neq {A} (l : list A) (i j : nat) (v d : A) :
  i <> j -> nth j (set_nth l i v) d = nth j l d.
Proof.
  revert i j. induction l as [|h t IH]; intros [|i] [|j] H; simpl; auto; try congruence.
  all: apply IH; congruence.
Qed.


(** [SetPlane(idx, point, normal)] followed by a read of slot [idx] gives
    back [point] and [normal]; every other slot and the count are kept. *)
Theorem SetPlane_read_back (mp : MultiPlane) (idx : Z) (point normal : Vec3)
    (Hwf : mp_wf mp) (Hidx : (0 <= idx < 3)%Z) :
  exists mp', SetPlane mp idx point normal = Ok mp' /\
    get (Points mp') (Z.to_nat idx) = point /\ get (Normals mp') (Z.to_nat idx) = normal /\
    (forall j : nat, j <> Z.to_nat idx ->
       get (Points mp') j = get (Points mp) j /\ get (Normals mp') j = get (Normals mp) j) /\
    m_num_planes mp' = m_num_planes mp.
Proof.
  destruct Hwf as [H1 H2]. unfold SetPlane.
  replace ((0 <=? idx)%Z && (idx <? 3)%Z) with true
    by (symmetry; apply andb_true_iff; split; [apply Z.leb_le|apply Z.ltb_lt]; lia).
  eexists. split; [reflexivity|]. unfold get; simpl.
  split; [apply nth_set_nth_eq; lia|]. split; [apply nth_set_nth_eq; lia|].
  split; [|reflexivity].
  intros j Hj. split; apply nth_set_nth_neq; congruence.
Qed.

Lemma SetPlane_read_back_witness :
  mp_wf MultiPlane_default /\ (0 <= 1 < 3)%Z /\
  exists mp', SetPlane MultiPlane_default 1 (mkVec3 1 2 3) (mkVec3 0 0 1) = Ok mp' /\
    get (Points mp') (Z.to_nat 1) = mkVec3 1 2 3 /\ get (Normals mp') (Z.to_nat 1) = mkVec3 0 0 1 /\
    (forall j : nat, j <> Z.to_nat 1 ->
       get (Points mp') j = get (Points MultiPlane_default) j /\
       get (Normals mp') j = get (Normals MultiPlane_default) j) /\
    m_num_planes mp' = m_num_planes MultiPlane_default.
Proof.
  assert (Hw : mp_wf MultiPlane_default) by (split; reflexivity).
  assert (Hi : (0 <= 1 < 3)%Z) by lia.
  split; [exact Hw|]. split; [exact Hi|].
  exact (SetPlane_read_back MultiPlane_default 1 (mkVec3 1 2 3) (mkVec3 0 0 1) Hw Hi).
Defined.

(** [SetPlanes] followed by [GetPlanes] gives back the first three points
    and normals; slots 3 to 5 and the count are kept. *)
Theorem SetPlanes_GetPlanes (mp : MultiPlane) (points normals : list Vec3) (Hwf : mp_wf mp) :
  GetPlanes (SetPlanes mp points normals)
    = ([get points 0; get points 1; get points 2], [get normals 0; get normals 1; get normals 2]) /\
  (forall j : nat, (3 <= j)%nat ->
     get (Points (SetPlanes mp points normals)) j = get (Points mp) j /\
     get (Normals (SetPlanes mp points normals)) j = get (Normals mp) j) /\
  m_num_planes (SetPlanes mp points normals) = m_num_planes mp.
Proof.
  destruct Hwf as [H1 H2].
  destruct (Points mp) as [|a0 [|a1 [|a2 ps]]] eqn:Ep; simpl in H1; try lia.
  destruct (Normals mp) as [|b0 [|b1 [|b2 ns]]] eqn:En; simpl in H2; try lia.
  unfold GetPlanes, SetPlanes, get; simpl. rewrite Ep, En. simpl.
  split; [reflexivity|]. split; [|reflexivity].
  intros [|[|[|j]]] Hj; try lia. simpl. split; reflexivity.
Qed.

Lemma SetPlanes_GetPlanes_witness :
  mp_wf MultiPlane_default /\
  GetPlanes (SetPlanes MultiPlane_default [mkVec3 1 0 0] [mkVec3 0 1 0])
    = ([get [mkVec3 1 0 0] 0; get [mkVec3 1 0 0] 1; get [mkVec3 1 0 0] 2],
       [get [mkVec3 0 1 0] 0; get [mkVec3 0 1 0] 1; get [mkVec3 0 1 0] 2]) /\
  (forall j : nat, (3 <= j)%nat ->
     get (Points (SetPlanes MultiPlane_default [mkVec3 1 0 0] [mkVec3 0 1 0])) j
       = get (Points MultiPlane_default) j /\
     get (Normals (SetPlanes MultiPlane_default [mkVec3 1 0 0] [mkVec3 0 1 0])) j
       = get (Normals MultiPlane_default) j) /\
  m_num_planes (SetPlanes MultiPlane_default [mkVec3 1 0 0] [mkVec3 0 1 0])
    = m_num_planes MultiPlane_default.
Proof.
  assert (Hw : mp_wf MultiPlane_default) by (split; reflexivity).
  split; [exact Hw|].
  exact (SetPlanes_GetPlanes MultiPlane_default [mkVec3 1 0 0] [mkVec3 0 1 0] Hw).
Defined.

(** [Value] and [Gradient] agree: with at least one active plane, [Value]
    is (up to [==]) the value of the plane whose normal [Gradient] returns. *)
Theorem Value_at_Gradient_plane (mp : MultiPlane) (p : Vec3)
    (HN : (1 <= m_num_planes mp)%Z) :
  exists (r : nat) (q : Q), (Z.of_nat r < m_num_planes mp)%Z /\
    Gradient mp p = get (Normals mp) r /\ Value mp p = Fin q /\
    q == Dot (vsub p (get (Points mp) r)) (Gradient mp p).
Proof.
  unfold Gradient, Value.
  destruct (Z.to_nat (m_num_planes mp)) as [|f] eqn:E; [lia|].
  destruct (gradient_loop_start mp p f) as (Hr & Hmax & _). cbv zeta in *.
  set (r := gradient_loop mp p 0 (S f) NegInf 0) in *.
  destruct (value_loop_start mp p (S f)) as [[Hn _] | (i & Hi & Hv & Hvmax)]; [discriminate|].
  exists r, (plane_val mp p i). split; [lia|]. split; [reflexivity|]. split; [exact Hv|].
  change (plane_val mp p i == plane_val mp p r).
  apply Qle_antisym; [apply Hmax, Hi|apply Hvmax, Hr].
Qed.

Lemma Value_at_Gradient_plane_witness :
  let mp := MultiPlane_make [vzero; mkVec3 1 0 0; vzero] [mkVec3 1 0 0; mkVec3 0 1 0; vzero] 2 in
  (1 <= m_num_planes mp)%Z /\
  exists (r : nat) (q : Q), (Z.of_nat r < m_num_planes mp)%Z /\
    Gradient mp (mkVec3 2 5 0) = get (Normals mp) r /\ Value mp (mkVec3 2 5 0) = Fin q /\
    q == Dot (vsub (mkVec3 2 5 0) (get (Points mp) r)) (Gradient mp (mkVec3 2 5 0)).
Proof.
  intros mp. assert (H : (1 <= m_num_planes mp)%Z) by (simpl; lia).
  split; [exact H|]. exact (Value_at_Gradient_plane mp (mkVec3 2 5 0) H).
Defined.


(** The gradient of a surface built by [Set2PlaneClip] is always one of the
    two normalised normals, never the slot-2 placeholder; for
    [Set3PlaneClip] it is one of the three normalised normals. *)
Theorem SetNPlaneClip_Gradient_is_a_given_normal (Mesh FieldSelection : Type)
    (to_float RSqrt : Q -> Q) (c : Clip Mesh FieldSelection)
    (origin1 normal1 origin2 normal2 origin3 normal3 : Vec3) :
  (exists mp, m_func (Set2PlaneClip to_float RSqrt c origin1 normal1 origin2 normal2)
                = Some (IFMultiPlane mp) /\
     forall p, Gradient mp p = Normalize RSqrt (vconv to_float normal1) \/
               Gradient mp p = Normalize RSqrt (vconv to_float normal2)) /\
  (exists mp, m_func (Set3PlaneClip to_float RSqrt c origin1 normal1 origin2 normal2 origin3 normal3)
                = Some (IFMultiPlane mp) /\
     forall p, Gradient mp p = Normalize RSqrt (vconv to_float normal1) \/
               Gradient mp p = Normalize RSqrt (vconv to_float normal2) \/
               Gradient mp p = Normalize RSqrt (vconv to_float normal3)).
Proof.
  split.
  - eexists. split; [reflexivity|]. intro p. unfold Gradient. simpl.
    unfold get; simpl. destruct (negb _); simpl; auto.
  - eexists. split; [reflexivity|]. intro p. unfold Gradient. simpl.
    unfold get; simpl. destruct (negb (Qle_bool _ _)); simpl;
      match goal with |- context [if ?b then _ else _] => destruct b end;
      simpl; auto.
Qed.

Lemma ext_le_refl (a : ext) : ext_le a a.
Proof. destruct a; simpl; [exact I|apply Qle_refl]. Qed.

Lemma ext_le_trans (a b c : ext) : ext_le a b -> ext_le b c -> ext_le a c.
Proof.
  destruct a, b, c; simpl; auto; try contradiction. apply Qle_trans.
Qed.

Lemma ext_le_max_l (a b : ext) : ext_le a (ext_max a b).
Proof.
  destruct a as [|x], b as [|y]; simpl; auto using ext_le_refl.
  - apply Qle_refl.
  - destruct (Qle_bool x y) eqn:E; simpl; [apply Qle_bool_iff, E|apply Qle_refl].
Qed.

Lemma value_loop_ge (mp : MultiPlane) (p : Vec3) (f k : nat) (m : ext) :
  ext_le m (value_loop mp p k f m).
Proof.
  revert k m. induction f as [|f IH]; intros k m; simpl; [apply ext_le_refl|].
  eapply ext_le_trans; [apply ext_le_max_l|apply IH].
Qed.

Lemma value_loop_split (mp : MultiPlane) (p : Vec3) (a b k : nat) (m : ext) :
  value_loop mp p k (a + b) m = value_loop mp p (k + a) b (value_loop mp p k a m).
Proof.
  revert k m. induction a as [|a IH]; intros k m; simpl.
  - rewrite Nat.add_0_r. reflexivity.
  - rewrite IH. f_equal. lia.
Qed.

(** Raising the active count with [SetNumPlanes] never lowers [Value]: the
    loop takes the maximum over a longer prefix of the same slots. *)
Theorem Value_nondecreasing_in_count (mp : MultiPlane) (n m : Z) (p : Vec3)
    (Hnm : (n <= m)%Z) :
  match SetNumPlanes mp n, SetNumPlanes mp m with
  | Ok a, Ok b => ext_le (Value a p) (Value b p)
  | _, _ => False
  end.
Proof.
  simpl. unfold Value. simpl.
  replace (Z.to_nat m) with (Z.to_nat n + (Z.to_nat m - Z.to_nat n))%nat by lia.
  rewrite value_loop_split.
  rewrite (value_loop_ext (Modified {| Points := Points mp; Normals := Normals mp;
                                        m_num_planes := m; ModifiedCount := ModifiedCount mp |})
                          (Modified {| Points := Points mp; Normals := Normals mp;
                                        m_num_planes := n; ModifiedCount := ModifiedCount mp |})
                          p (Z.to_nat n) 0 NegInf) by (intros; reflexivity).
  apply value_loop_ge.
Qed.

Lemma Value_nondecreasing_in_count_witness :
  (2 <= 3)%Z /\
  match SetNumPlanes MultiPlane_default 2, SetNumPlanes MultiPlane_default 3 with
  | Ok a, Ok b => ext_le (Value a (mkVec3 1 1 1)) (Value b (mkVec3 1 1 1))
  | _, _ => False
  end.
Proof.
  assert (H : (2 <= 3)%Z) by lia. split; [exact H|].
  exact (Value_nondecreasing_in_count MultiPlane_default 2 3 (mkVec3 1 1 1) H).
Defined.

(** ** Further properties of [Clip] *)

(** On an input with no domain, [DoExecute] never calls the clip worklet and
    hands an empty data set to [CleanGrid]. *)
Theorem DoExecute_no_domains (Mesh FieldSelection Exn : Type)
    (vtkmClip_Run : Mesh -> ImplicitFunctionHandle -> bool -> FieldSelection -> Exn + Mesh)
    (CleanGrid_Run : DataSet Mesh -> Exn + DataSet Mesh) (c : Clip Mesh FieldSelection)
    (Hempty : m_input c = []) :
  DoExecute vtkmClip_Run CleanGrid_Run c =
    match CleanGrid_Run [] with
    | inl e => ([], inl e, c)
    | inr out => ([], inr tt, mkClip (m_input c) (Some out) (m_field_selection c) (m_func c) (m_invert c))
    end.
Proof.
  unfold DoExecute. rewrite Hempty. simpl. rewrite <- Hempty. reflexivity.
Qed.

Lemma DoExecute_no_domains_witness :
  let c := mkClip (Mesh := nat) [] None tt None false in
  m_input c = [] /\
  DoExecute (fun (m : nat) (_ : ImplicitFunctionHandle) (_ : bool) (_ : unit) => (inr m : unit + nat))
            (fun ds => inr ds) c =
    match (inr [] : unit + DataSet nat) with
    | inl e => ([], inl e, c)
    | inr out => ([], inr tt, mkClip (m_input c) (Some out) (m_field_selection c) (m_func c) (m_invert c))
    end.
Proof.
  intros c. assert (H : m_input c = []) by reflexivity. split; [exact H|].
  exact (DoExecute_no_domains nat unit unit
           (fun (m : nat) (_ : ImplicitFunctionHandle) (_ : bool) (_ : unit) => (inr m : unit + nat))
           (fun ds => inr ds) c H).
Defined.

(** [DoExecute] never changes the filter's configuration or input: the
    input, the field selection, the implicit function and the invert flag
    are the same afterwards, whatever the external stages do. *)
Theorem DoExecute_keeps_configuration (Mesh FieldSelection Exn : Type)
    (vtkmClip_Run : Mesh -> ImplicitFunctionHandle -> bool -> FieldSelection -> Exn + Mesh)
    (CleanGrid_Run : DataSet Mesh -> Exn + DataSet Mesh) (c : Clip Mesh FieldSelection) :
  let c' := snd (DoExecute vtkmClip_Run CleanGrid_Run c) in
  m_input c' = m_input c /\ m_field_selection c' = m_field_selection c /\
  m_func c' = m_func c /\ m_invert c' = m_invert c.
Proof.
  unfold DoExecute.
  destruct (do_loop vtkmClip_Run c 0 (length (m_input c)) []) as [log [e|ds]];
    [|destruct (CleanGrid_Run ds)]; simpl; auto.
Qed.

(** How the configuration setters compose: a surface setter discards any
    surface configured before it, [SetInvertClip] commutes with every
    surface setter, and the last [SetInvertClip] wins. *)
Theorem configuration_setters_compose (Mesh FieldSelection : Type) (to_float RSqrt : Q -> Q) :
  (forall (c : Clip Mesh FieldSelection) (s1 s2 : SurfaceSetter),
     apply_surface to_float RSqrt (apply_surface to_float RSqrt c s1) s2
       = apply_surface to_float RSqrt c s2) /\
  (forall (c : Clip Mesh FieldSelection) (s : SurfaceSetter) (invert : bool),
     apply_surface to_float RSqrt (SetInvertClip c invert) s
       = SetInvertClip (apply_surface to_float RSqrt c s) invert) /\
  (forall (c : Clip Mesh FieldSelection) (v w : bool),
     SetInvertClip (SetInvertClip c v) w = SetInvertClip c w).
Proof.
  split; [|split].
  - intros c s1 s2. destruct s1, s2; reflexivity.
  - intros c s invert. destruct s; reflexivity.
  - reflexivity.
Qed.
